(** * sqrtPriceX96 from pool reserves: a model of [sqrtprice.py]

    The script holds one function, [calculate_sqrt_price], and a test routine,
    [run_tests].  Python integers are unbounded, so reserves are modelled as
    [Z].  The two decimal exponents are modelled as [N]: for a negative
    exponent Python's [**] leaves integer arithmetic, and that fragment is
    outside this development.  A call either returns a value or raises an
    exception; exceptions are threaded through an error monad. *)

From Stdlib Require Import ZArith NArith Lia String List.
From Stdlib Require DecimalString HexadecimalString.
Import ListNotations.
Local Open Scope Z_scope.

(** ** Outcomes of a Python call *)

Inductive exn : Type :=
| ValueError (msg : string)
| ZeroDivisionError (msg : string)
| AssertionError (test : string) (expected actual : Z).

Inductive outcome (A : Type) : Type :=
| Return (a : A)
| Raise (e : exn).

Arguments Return {A} a.
Arguments Raise {A} e.

Definition bind {A B : Type} (c : outcome A) (k : A -> outcome B) : outcome B :=
  match c with
  | Return a => k a
  | Raise e => Raise e
  end.

Declare Scope py_scope.
Delimit Scope py_scope with py.
Notation "x <- c ;; k" := (bind c (fun x => k))
  (at level 61, c at next level, right associativity) : py_scope.
Notation "c ;;; k" := (bind c (fun _ => k))
  (at level 61, right associativity) : py_scope.
Local Open Scope py_scope.

(** ** The Python primitives the script calls *)

Module Py.

(** [b ** e] on integers, for an exponent that is not negative. *)
Definition pow (b : Z) (e : N) : Z := b ^ Z.of_N e.

(** [a // b]: floor division; a zero divisor raises. *)
Definition floordiv (a b : Z) : outcome Z :=
  if b =? 0 then Raise (ZeroDivisionError "integer division or modulo by zero")
  else Return (a / b).

(** The exception [math.isqrt] raises on a negative argument. *)
Definition isqrt_negative : exn :=
  ValueError "isqrt() argument must be nonnegative".

(** [math.isqrt n]: the floor of the square root; a negative argument
    raises [ValueError]. *)
Definition isqrt (n : Z) : outcome Z :=
  if n <? 0 then Raise isqrt_negative else Return (Z.sqrt n).

End Py.

Notation "b ** e" := (Py.pow b e) (at level 30, right associativity) : py_scope.
Notation "a // b" := (Py.floordiv a b) (at level 40, left associativity) : py_scope.

(** ** [calculate_sqrt_price] *)

(** The exception of the guard on [token0_amount]; the specification calls it
    [InvalidInput]. *)
Definition InvalidInput : exn := ValueError "Token0 reserve cannot be zero".

Definition calculate_sqrt_price
    (token0_reserve token1_reserve : Z) (token0_decimals token1_decimals : N)
    : outcome Z :=
  let token0_amount := token0_reserve * (10 ** token0_decimals) in
  let token1_amount := token1_reserve * (10 ** token1_decimals) in
  if token0_amount =? 0 then Raise InvalidInput
  else
    let numerator := token1_amount * (2 ** 192) in
    price_ratio_scaled <- numerator // token0_amount ;;
    sqrt_price_x96 <- Py.isqrt price_ratio_scaled ;;
    Return sqrt_price_x96.

(** ** [run_tests] *)

(** One block of [run_tests]: call the function at 18 decimals on both sides
    and assert the expected constant.  The printing is left out. *)
Definition check_case (name : string) (token0_reserve token1_reserve expected : Z)
    : outcome unit :=
  actual <- calculate_sqrt_price token0_reserve token1_reserve 18 18 ;;
  if actual =? expected then Return tt
  else Raise (AssertionError name expected actual).

Definition run_tests : outcome unit :=
  check_case "SQRT_PRICE_1_1" 1 1 79228162514264337593543950336 ;;;
  check_case "SQRT_PRICE_1_2" 2 1 56022770974786139918731938227 ;;;
  check_case "SQRT_PRICE_1_4" 4 1 39614081257132168796771975168 ;;;
  check_case "SQRT_PRICE_2_1" 1 2 112045541949572279837463876454 ;;;
  check_case "SQRT_PRICE_4_1" 1 4 158456325028528675187087900672 ;;;
  check_case "SQRT_PRICE_121_100" 100 121 87150978765690771352898345369 ;;;
  check_case "SQRT_PRICE_99_100" 100 99 78831026366734652303669917531 ;;;
  check_case "SQRT_PRICE_99_1000" 1000 99 24928559360766947368818086097 ;;;
  check_case "SQRT_PRICE_101_100" 100 101 79623317895830914510639640423 ;;;
  check_case "SQRT_PRICE_1000_100" 100 1000 250541448375047931186413801569 ;;;
  check_case "SQRT_PRICE_1010_100" 100 1010 251791039410471229173201122529 ;;;
  check_case "SQRT_PRICE_10000_100" 100 10000 792281625142643375935439503360.

(** The script's entry point calls the function once, on these reserves. *)
Definition main_sqrt_price : outcome Z :=
  calculate_sqrt_price 1000000000000000000 1000000000000000000000 18 18.

(** The two built-ins the entry point formats the result with. *)
Module PyFormat.

(** [str n], as an f-string renders an integer: decimal digits, a leading
    minus sign for a negative number. *)
Definition str (n : Z) : string :=
  DecimalString.NilZero.string_of_int (Z.to_int n).

Definition hex_digits (n : Z) : string :=
  HexadecimalString.NilZero.string_of_uint (N.to_hex_uint (Z.to_N n)).

(** [hex n]: lowercase digits after [0x], no padding; the sign comes first. *)
Definition hex (n : Z) : string :=
  if n <? 0 then ("-0x" ++ hex_digits (- n))%string
  else ("0x" ++ hex_digits n)%string.

End PyFormat.

(** The entry point as a whole: the call, then the two printed lines. *)
Definition main : outcome (list string) :=
  let token0_reserve := 1000000000000000000 in
  let token1_reserve := 1000000000000000000000 in
  let token0_decimals := 18%N in
  let token1_decimals := 18%N in
  sqrt_price <- calculate_sqrt_price token0_reserve token1_reserve
                  token0_decimals token1_decimals ;;
  Return [ ("sqrtPriceX96 USDC/DCA: " ++ PyFormat.str sqrt_price)%string;
           ("sqrtPriceX96 (hex): " ++ PyFormat.hex sqrt_price)%string ].

(** ** The specification's reading of the computation *)

Module Spec.

(** The exact integer square root, as a relation: the non-negative [r] with
    [r^2 <= n < (r+1)^2]. *)
Definition is_isqrt (n r : Z) : Prop :=
  0 <= r /\ r ^ 2 <= n < (r + 1) ^ 2.

(** An exact integer algorithm for it: binary search over the bits of the
    root, from bit [i - 1] down to bit 0. *)
Fixpoint isqrt_search (i : nat) (n r : Z) : Z :=
  match i with
  | O => r
  | S j =>
      let c := r + 2 ^ Z.of_nat j in
      isqrt_search j n (if c * c <=? n then c else r)
  end.

Definition isqrt (n : Z) : Z :=
  isqrt_search (S (Z.to_nat (Z.log2 n))) n 0.

(** Steps 1 to 7 of the algorithm; [None] stands for [InvalidInput]. *)
Definition compute (reserve0 reserve1 : Z) (decimals0 decimals1 : N) : option Z :=
  let tokenAmount0 := reserve0 * 10 ^ Z.of_N decimals0 in
  let tokenAmount1 := reserve1 * 10 ^ Z.of_N decimals1 in
  if tokenAmount0 =? 0 then None
  else
    let numerator := tokenAmount1 * 2 ^ 192 in
    let priceRatioScaled := numerator / tokenAmount0 in
    Some (isqrt priceRatioScaled).

End Spec.

(** ** Predicates on outcomes *)

(** The call raised some [ValueError], whatever its message. *)
Definition raises_ValueError {A : Type} (o : outcome A) : Prop :=
  exists msg, o = Raise (ValueError msg).

(** The call raised, whatever the exception. *)
Definition raises {A : Type} (o : outcome A) : Prop :=
  exists e, o = Raise e.

(** The value the function binds to [price_ratio_scaled] past its guard. *)
Definition price_ratio_scaled (r0 r1 : Z) (d0 d1 : N) : Z :=
  (r1 * 10 ** d1 * 2 ** 192) / (r0 * 10 ** d0).

(** * Properties *)

(** ** Evaluation lemmas *)

Lemma pow_pos (b : Z) (e : N) : 0 < b -> 0 < b ** e.
Proof. intro Hb. unfold Py.pow. apply Z.pow_pos_nonneg; lia. Qed.

Lemma pow_succ (b : Z) (e : N) : b ** (e + 1) = b * b ** e.
Proof.
  unfold Py.pow. rewrite N2Z.inj_add. change (Z.of_N 1) with 1.
  rewrite Z.pow_add_r by lia. rewrite Z.pow_1_r. ring.
Qed.

(** Past the guard the function is the square root of the floored quotient,
    or the exception of [math.isqrt] when that quotient is negative. *)
Lemma calculate_sqrt_price_nonzero (r0 r1 : Z) (d0 d1 : N) :
  r0 * 10 ** d0 <> 0 ->
  calculate_sqrt_price r0 r1 d0 d1 = Py.isqrt (price_ratio_scaled r0 r1 d0 d1).
Proof.
  intro Hnz. unfold calculate_sqrt_price, price_ratio_scaled, Py.floordiv.
  destruct (Z.eqb_spec (r0 * 10 ** d0) 0) as [E | _]; [contradiction |].
  cbn [bind]. destruct (Py.isqrt _); reflexivity.
Qed.

Lemma calculate_sqrt_price_zero (r0 r1 : Z) (d0 d1 : N) :
  r0 * 10 ** d0 = 0 ->
  calculate_sqrt_price r0 r1 d0 d1 = Raise InvalidInput.
Proof.
  intro Hz. unfold calculate_sqrt_price. rewrite Hz. reflexivity.
Qed.

(** C2: at 18 decimals on both sides the function returns the twelve constants
    of the end-to-end table. *)
Theorem table_values :
  calculate_sqrt_price 1 1 18 18 = Return 79228162514264337593543950336 /\
  calculate_sqrt_price 2 1 18 18 = Return 56022770974786139918731938227 /\
  calculate_sqrt_price 4 1 18 18 = Return 39614081257132168796771975168 /\
  calculate_sqrt_price 1 2 18 18 = Return 112045541949572279837463876454 /\
  calculate_sqrt_price 1 4 18 18 = Return 158456325028528675187087900672 /\
  calculate_sqrt_price 100 121 18 18 = Return 87150978765690771352898345369 /\
  calculate_sqrt_price 100 99 18 18 = Return 78831026366734652303669917531 /\
  calculate_sqrt_price 1000 99 18 18 = Return 24928559360766947368818086097 /\
  calculate_sqrt_price 100 101 18 18 = Return 79623317895830914510639640423 /\
  calculate_sqrt_price 100 1000 18 18 = Return 250541448375047931186413801569 /\
  calculate_sqrt_price 100 1010 18 18 = Return 251791039410471229173201122529 /\
  calculate_sqrt_price 100 10000 18 18 = Return 792281625142643375935439503360.
Proof. repeat split; vm_compute; reflexivity. Qed.

(** The assertions of [run_tests] all hold. *)
Lemma run_tests_pass : run_tests = Return tt.
Proof. vm_compute. reflexivity. Qed.

(** The value the entry point prints. *)
Example main_sqrt_price_value :
  main_sqrt_price = Return 2505414483750479311864138015696.
Proof. vm_compute. reflexivity. Qed.

(** The two lines the entry point prints. *)
Example main_output :
  main = Return [ "sqrtPriceX96 USDC/DCA: 2505414483750479311864138015696"%string;
                  "sqrtPriceX96 (hex): 0x1f9f6e4990f2273685cb6ba3d0"%string ].
Proof. vm_compute. reflexivity. Qed.

(** Reserves of opposite signs reach [math.isqrt] with a negative argument. *)
Example opposite_signs_raise :
  calculate_sqrt_price (-1) 1 18 18 = Raise Py.isqrt_negative /\
  calculate_sqrt_price 1 (-1) 18 18 = Raise Py.isqrt_negative.
Proof. split; vm_compute; reflexivity. Qed.

(** ** The binary search computes the integer square root *)

Lemma is_isqrt_unique (n r r' : Z) :
  Spec.is_isqrt n r -> Spec.is_isqrt n r' -> r = r'.
Proof. unfold Spec.is_isqrt. intros [Hr Hn] [Hr' Hn']. nia. Qed.

Lemma isqrt_search_bracket (i : nat) : forall n r,
  0 <= r ->
  r * r <= n < (r + 2 ^ Z.of_nat i) * (r + 2 ^ Z.of_nat i) ->
  Spec.is_isqrt n (Spec.isqrt_search i n r).
Proof.
  induction i as [| j IH]; intros n r Hr Hn.
  - cbn [Spec.isqrt_search]. change (2 ^ Z.of_nat 0) with 1 in Hn.
    unfold Spec.is_isqrt. rewrite !Z.pow_2_r. lia.
  - cbn [Spec.isqrt_search].
    assert (Hp : 0 < 2 ^ Z.of_nat j) by (apply Z.pow_pos_nonneg; lia).
    assert (Hd : 2 ^ Z.of_nat (S j) = 2 * 2 ^ Z.of_nat j).
    { rewrite Nat2Z.inj_succ. apply Z.pow_succ_r. lia. }
    rewrite Hd in Hn.
    destruct (Z.leb_spec ((r + 2 ^ Z.of_nat j) * (r + 2 ^ Z.of_nat j)) n)
      as [Hle | Hgt].
    + apply IH; [lia |]. split; [exact Hle |].
      replace (r + 2 ^ Z.of_nat j + 2 ^ Z.of_nat j)
        with (r + 2 * 2 ^ Z.of_nat j) by ring.
      lia.
    + apply IH; [exact Hr |]. lia.
Qed.

Lemma spec_isqrt_correct (n : Z) : 0 <= n -> Spec.is_isqrt n (Spec.isqrt n).
Proof.
  intro Hn. unfold Spec.isqrt. apply isqrt_search_bracket; [lia |].
  assert (Hl : 0 <= Z.log2 n) by apply Z.log2_nonneg.
  rewrite Nat2Z.inj_succ, Z2Nat.id by exact Hl.
  assert (Hlt : n < 2 ^ Z.succ (Z.log2 n)).
  { destruct (Z.eq_dec n 0) as [-> | Hnz]; [reflexivity |].
    apply Z.log2_spec. lia. }
  assert (Hone : 1 <= 2 ^ Z.succ (Z.log2 n)).
  { assert (0 < 2 ^ Z.succ (Z.log2 n)) by (apply Z.pow_pos_nonneg; lia). lia. }
  nia.
Qed.

Lemma sqrt_is_isqrt (n : Z) : 0 <= n -> Spec.is_isqrt n (Z.sqrt n).
Proof.
  intro Hn. unfold Spec.is_isqrt. rewrite !Z.pow_2_r.
  split; [apply Z.sqrt_nonneg |].
  pose proof (Z.sqrt_spec n Hn) as H. cbv zeta in H.
  unfold Z.succ in H. exact H.
Qed.

Lemma spec_isqrt_sqrt (n : Z) : 0 <= n -> Z.sqrt n = Spec.isqrt n.
Proof.
  intro Hn. apply (is_isqrt_unique n); auto using sqrt_is_isqrt, spec_isqrt_correct.
Qed.

(** The search runs on the operands of the table. *)
Example spec_compute_121_100 :
  Spec.compute 100 121 18 18 = Some 87150978765690771352898345369.
Proof. vm_compute. reflexivity. Qed.

(** ** Valid inputs: non-negative reserves and a non-zero scaled amount *)

Section ValidInput.

Variables (r0 r1 : Z) (d0 d1 : N).
Hypothesis Hr0 : 0 <= r0.
Hypothesis Hr1 : 0 <= r1.
Hypothesis Hnz : r0 * 10 ** d0 <> 0.

Lemma token0_amount_pos : 0 < r0 * 10 ** d0.
Proof. pose proof (pow_pos 10 d0). nia. Qed.

Lemma numerator_nonneg : 0 <= r1 * 10 ** d1 * 2 ** 192.
Proof. pose proof (pow_pos 10 d1). pose proof (pow_pos 2 192). nia. Qed.

Lemma price_ratio_scaled_nonneg : 0 <= price_ratio_scaled r0 r1 d0 d1.
Proof.
  unfold price_ratio_scaled.
  apply Z.div_pos; [apply numerator_nonneg | apply token0_amount_pos].
Qed.

Lemma calculate_sqrt_price_valid :
  calculate_sqrt_price r0 r1 d0 d1 =
  Return (Z.sqrt (price_ratio_scaled r0 r1 d0 d1)).
Proof.
  rewrite calculate_sqrt_price_nonzero by exact Hnz.
  unfold Py.isqrt. pose proof price_ratio_scaled_nonneg as Hq.
  destruct (Z.ltb_spec (price_ratio_scaled r0 r1 d0 d1) 0); [lia | reflexivity].
Qed.

End ValidInput.

(** The guard fires exactly on a zero scaled amount, whatever the signs. *)
Lemma guard_exact (r0 r1 : Z) (d0 d1 : N) :
  calculate_sqrt_price r0 r1 d0 d1 = Raise InvalidInput <-> r0 * 10 ** d0 = 0.
Proof.
  split.
  - intro H. destruct (Z.eq_dec (r0 * 10 ** d0) 0) as [E | E]; [exact E |].
    rewrite calculate_sqrt_price_nonzero in H by exact E.
    unfold Py.isqrt in H. destruct (_ <? 0); discriminate H.
  - apply calculate_sqrt_price_zero.
Qed.

(** On every input the function agrees with the seven steps of the
    specification as long as the quotient is not negative. *)
Lemma calculate_sqrt_price_spec (r0 r1 : Z) (d0 d1 : N) :
  0 <= r0 -> 0 <= r1 ->
  calculate_sqrt_price r0 r1 d0 d1 =
  match Spec.compute r0 r1 d0 d1 with
  | Some v => Return v
  | None => Raise InvalidInput
  end.
Proof.
  intros Hr0 Hr1. unfold Spec.compute. fold (10 ** d0) (10 ** d1) (2 ** 192).
  destruct (Z.eqb_spec (r0 * 10 ** d0) 0) as [E | E].
  - apply calculate_sqrt_price_zero, E.
  - rewrite calculate_sqrt_price_valid by assumption.
    fold (price_ratio_scaled r0 r1 d0 d1).
    rewrite spec_isqrt_sqrt; [reflexivity |].
    apply price_ratio_scaled_nonneg; assumption.
Qed.

(** ** The claims on valid inputs *)

(** C1: for non-negative reserves and decimals with a non-zero scaled amount
    of token0, the function returns the exact integer square root of
    [(reserve1 * 10^decimals1 * 2^192) // (reserve0 * 10^decimals0)]: the value
    the specification's integer algorithm computes, which is the only
    non-negative [r] with [r^2 <= quotient < (r+1)^2]. *)
Theorem compute_is_isqrt_of_quotient (r0 r1 : Z) (d0 d1 : N) :
  0 <= r0 -> 0 <= r1 -> r0 * 10 ^ Z.of_N d0 <> 0 ->
  let q := (r1 * 10 ^ Z.of_N d1 * 2 ^ 192) / (r0 * 10 ^ Z.of_N d0) in
  calculate_sqrt_price r0 r1 d0 d1 = Return (Spec.isqrt q) /\
  (forall r, Spec.is_isqrt q r <-> r = Spec.isqrt q).
Proof.
  intros Hr0 Hr1 Hnz q.
  assert (Hq : 0 <= q) by (apply price_ratio_scaled_nonneg; assumption).
  split.
  - rewrite calculate_sqrt_price_valid by assumption.
    fold (price_ratio_scaled r0 r1 d0 d1) in q.
    rewrite spec_isqrt_sqrt by exact Hq. reflexivity.
  - intro r. split.
    + intro H. apply (is_isqrt_unique q); [exact H | apply spec_isqrt_correct, Hq].
    + intros ->. apply spec_isqrt_correct, Hq.
Qed.

Lemma compute_is_isqrt_of_quotient_witness :
  0 <= 100 /\ 0 <= 121 /\ 100 * 10 ^ Z.of_N 18 <> 0 /\
  let q := (121 * 10 ^ Z.of_N 18 * 2 ^ 192) / (100 * 10 ^ Z.of_N 18) in
  calculate_sqrt_price 100 121 18 18 = Return (Spec.isqrt q) /\
  (forall r, Spec.is_isqrt q r <-> r = Spec.isqrt q).
Proof.
  assert (H0 : 0 <= 100) by lia.
  assert (H1 : 0 <= 121) by lia.
  assert (Hnz : 100 * 10 ^ Z.of_N 18 <> 0) by (vm_compute; discriminate).
  split; [exact H0 | split; [exact H1 | split; [exact Hnz |]]].
  exact (compute_is_isqrt_of_quotient 100 121 18 18 H0 H1 Hnz).
Defined.

(** C4: on valid inputs the returned value [r] brackets the floored quotient:
    [r^2 <= priceRatioScaled < (r+1)^2]. *)
Theorem result_brackets_price_ratio (r0 r1 : Z) (d0 d1 : N) :
  0 <= r0 -> 0 <= r1 -> r0 * 10 ^ Z.of_N d0 <> 0 ->
  exists r,
    calculate_sqrt_price r0 r1 d0 d1 = Return r /\
    r ^ 2 <= (r1 * 10 ^ Z.of_N d1 * 2 ^ 192) / (r0 * 10 ^ Z.of_N d0) < (r + 1) ^ 2.
Proof.
  intros Hr0 Hr1 Hnz.
  exists (Z.sqrt (price_ratio_scaled r0 r1 d0 d1)). split.
  - apply calculate_sqrt_price_valid; assumption.
  - apply sqrt_is_isqrt, price_ratio_scaled_nonneg; assumption.
Qed.

Lemma result_brackets_price_ratio_witness :
  0 <= 2 /\ 0 <= 1 /\ 2 * 10 ^ Z.of_N 18 <> 0 /\
  exists r,
    calculate_sqrt_price 2 1 18 18 = Return r /\
    r ^ 2 <= (1 * 10 ^ Z.of_N 18 * 2 ^ 192) / (2 * 10 ^ Z.of_N 18) < (r + 1) ^ 2.
Proof.
  assert (H0 : 0 <= 2) by lia.
  assert (H1 : 0 <= 1) by lia.
  assert (Hnz : 2 * 10 ^ Z.of_N 18 <> 0) by (vm_compute; discriminate).
  split; [exact H0 | split; [exact H1 | split; [exact Hnz |]]].
  exact (result_brackets_price_ratio 2 1 18 18 H0 H1 Hnz).
Defined.

(** C7: on valid inputs the call returns a value: the guard does not fire and
    neither the division nor the square root raises. *)
Theorem valid_input_returns (r0 r1 : Z) (d0 d1 : N) :
  0 <= r0 -> 0 <= r1 -> r0 * 10 ^ Z.of_N d0 <> 0 ->
  (exists r, calculate_sqrt_price r0 r1 d0 d1 = Return r /\ 0 <= r) /\
  ~ raises (calculate_sqrt_price r0 r1 d0 d1).
Proof.
  intros Hr0 Hr1 Hnz.
  rewrite calculate_sqrt_price_valid by assumption. split.
  - eexists. split; [reflexivity | apply Z.sqrt_nonneg].
  - intros [e He]. discriminate He.
Qed.

Lemma valid_input_returns_witness :
  0 <= 1000 /\ 0 <= 99 /\ 1000 * 10 ^ Z.of_N 18 <> 0 /\
  (exists r, calculate_sqrt_price 1000 99 18 18 = Return r /\ 0 <= r) /\
  ~ raises (calculate_sqrt_price 1000 99 18 18).
Proof.
  assert (H0 : 0 <= 1000) by lia.
  assert (H1 : 0 <= 99) by lia.
  assert (Hnz : 1000 * 10 ^ Z.of_N 18 <> 0) by (vm_compute; discriminate).
  split; [exact H0 | split; [exact H1 | split; [exact Hnz |]]].
  exact (valid_input_returns 1000 99 18 18 H0 H1 Hnz).
Defined.

(** C3: on non-negative inputs the call fails if and only if the scaled amount
    of token0 is zero, and the failure is [InvalidInput]; so a zero [reserve0]
    raises [InvalidInput] for every [reserve1] and decimals, and so does the
    call at (0, 1, 18, 18). *)
Theorem fails_iff_zero_amount (r0 r1 : Z) (d0 d1 : N) :
  0 <= r0 -> 0 <= r1 ->
  (raises (calculate_sqrt_price r0 r1 d0 d1) <-> r0 * 10 ^ Z.of_N d0 = 0) /\
  (calculate_sqrt_price r0 r1 d0 d1 = Raise InvalidInput <->
   r0 * 10 ^ Z.of_N d0 = 0) /\
  calculate_sqrt_price 0 r1 d0 d1 = Raise InvalidInput /\
  calculate_sqrt_price 0 1 18 18 = Raise InvalidInput.
Proof.
  intros Hr0 Hr1. split; [| split; [apply guard_exact | split]].
  - split.
    + intros [e He].
      destruct (Z.eq_dec (r0 * 10 ** d0) 0) as [E | E]; [exact E |].
      rewrite calculate_sqrt_price_valid in He by assumption. discriminate He.
    + intro E. exists InvalidInput. apply calculate_sqrt_price_zero, E.
  - apply calculate_sqrt_price_zero. apply Z.mul_0_l.
  - apply calculate_sqrt_price_zero. apply Z.mul_0_l.
Qed.

Lemma fails_iff_zero_amount_witness :
  0 <= 0 /\ 0 <= 1 /\
  (raises (calculate_sqrt_price 0 1 18 18) <-> 0 * 10 ^ Z.of_N 18 = 0) /\
  (calculate_sqrt_price 0 1 18 18 = Raise InvalidInput <->
   0 * 10 ^ Z.of_N 18 = 0) /\
  calculate_sqrt_price 0 1 18 18 = Raise InvalidInput /\
  calculate_sqrt_price 0 1 18 18 = Raise InvalidInput.
Proof.
  assert (H0 : 0 <= 0) by lia.
  assert (H1 : 0 <= 1) by lia.
  split; [exact H0 | split; [exact H1 |]].
  exact (fails_iff_zero_amount 0 1 18 18 H0 H1).
Defined.

(** ** Invariance under common factors *)

(** A factor [k <> 0] on both scaled amounts leaves the outcome unchanged, for
    reserves of any sign. *)
Lemma common_factor_cancels (k r0 r1 r0' r1' : Z) (d0 d1 d0' d1' : N) :
  k <> 0 ->
  r0' * 10 ** d0' = k * (r0 * 10 ** d0) ->
  r1' * 10 ** d1' = k * (r1 * 10 ** d1) ->
  calculate_sqrt_price r0' r1' d0' d1' = calculate_sqrt_price r0 r1 d0 d1.
Proof.
  intros Hk E0 E1.
  destruct (Z.eq_dec (r0 * 10 ** d0) 0) as [Z0 | NZ0].
  - rewrite !calculate_sqrt_price_zero; [reflexivity | exact Z0 |].
    rewrite E0, Z0. apply Z.mul_0_r.
  - assert (NZ0' : r0' * 10 ** d0' <> 0) by (rewrite E0; nia).
    rewrite !calculate_sqrt_price_nonzero by assumption.
    f_equal. unfold price_ratio_scaled. rewrite E0, E1.
    rewrite <- !Z.mul_assoc. apply Z.div_mul_cancel_l; assumption.
Qed.

Lemma decimal_shift_any (r0 r1 : Z) (d0 d1 : N) :
  calculate_sqrt_price r0 r1 d0 d1 =
  calculate_sqrt_price r0 r1 (d0 + 1) (d1 + 1).
Proof.
  symmetry. apply (common_factor_cancels 10); [discriminate | |];
    rewrite pow_succ; ring.
Qed.

(** C5: adding one to both decimals leaves the result unchanged. *)
Theorem equal_decimal_shift (r0 r1 : Z) (d0 d1 : N) :
  0 < r0 -> 0 <= r1 ->
  calculate_sqrt_price r0 r1 d0 d1 =
  calculate_sqrt_price r0 r1 (d0 + 1) (d1 + 1).
Proof. intros _ _. apply decimal_shift_any. Qed.

Lemma equal_decimal_shift_witness :
  0 < 3 /\ 0 <= 7 /\
  calculate_sqrt_price 3 7 6 18 = calculate_sqrt_price 3 7 (6 + 1) (18 + 1).
Proof.
  assert (H0 : 0 < 3) by lia.
  assert (H1 : 0 <= 7) by lia.
  split; [exact H0 | split; [exact H1 |]].
  exact (equal_decimal_shift 3 7 6 18 H0 H1).
Defined.

(** C9: multiplying both reserves by the same positive factor leaves the
    result unchanged. *)
Theorem common_reserve_factor (k r0 r1 : Z) (d0 d1 : N) :
  0 < k -> 0 < r0 -> 0 <= r1 ->
  calculate_sqrt_price (k * r0) (k * r1) d0 d1 =
  calculate_sqrt_price r0 r1 d0 d1.
Proof.
  intros Hk _ _. apply (common_factor_cancels k); [lia | |]; ring.
Qed.

Lemma common_reserve_factor_witness :
  0 < 5 /\ 0 < 100 /\ 0 <= 99 /\
  calculate_sqrt_price (5 * 100) (5 * 99) 18 6 = calculate_sqrt_price 100 99 18 6.
Proof.
  assert (Hk : 0 < 5) by lia.
  assert (H0 : 0 < 100) by lia.
  assert (H1 : 0 <= 99) by lia.
  split; [exact Hk | split; [exact H0 | split; [exact H1 |]]].
  exact (common_reserve_factor 5 100 99 18 6 Hk H0 H1).
Defined.

(** ** A zero result *)

(** C10: a zero [reserve1] is accepted and gives 0 whenever [reserve0] is
    positive; and for a non-negative [reserve1] the result is 0 exactly when
    the numerator is below the scaled amount of token0. *)
Theorem zero_result (r0 r1 : Z) (d0 d1 : N) :
  0 < r0 -> 0 <= r1 ->
  calculate_sqrt_price r0 0 d0 d1 = Return 0 /\
  (calculate_sqrt_price r0 r1 d0 d1 = Return 0 <->
   r1 * 10 ^ Z.of_N d1 * 2 ^ 192 < r0 * 10 ^ Z.of_N d0).
Proof.
  intros Hr0 Hr1.
  assert (HD : 0 < r0 * 10 ** d0) by (pose proof (pow_pos 10 d0); nia).
  assert (Hnz : r0 * 10 ** d0 <> 0) by lia.
  split.
  - rewrite calculate_sqrt_price_valid by lia.
    unfold price_ratio_scaled. rewrite !Z.mul_0_l, Z.div_0_l by exact Hnz.
    reflexivity.
  - rewrite calculate_sqrt_price_valid by lia.
    pose proof (numerator_nonneg r1 d1 Hr1) as HN.
    pose proof (price_ratio_scaled_nonneg r0 r1 d0 d1 (Z.lt_le_incl _ _ Hr0) Hr1 Hnz)
      as Hq.
    pose proof (sqrt_is_isqrt _ Hq) as [_ Hs]. rewrite !Z.pow_2_r in Hs.
    unfold price_ratio_scaled in *.
    set (n := r1 * 10 ** d1 * 2 ** 192) in *.
    set (d := r0 * 10 ** d0) in *.
    change (Return (Z.sqrt (n / d)) = Return 0 <-> n < d).
    pose proof (Z.div_small_iff n d Hnz) as Hsmall.
    split.
    + intro H. injection H as H. rewrite H in Hs.
      assert (E : n / d = 0) by lia. apply Hsmall in E. lia.
    + intro H. assert (E : n / d = 0) by (apply Hsmall; lia).
      rewrite E. reflexivity.
Qed.

Lemma zero_result_witness :
  0 < 1 /\ 0 <= 0 /\
  calculate_sqrt_price 1 0 18 18 = Return 0 /\
  (calculate_sqrt_price 1 0 18 18 = Return 0 <->
   0 * 10 ^ Z.of_N 18 * 2 ^ 192 < 1 * 10 ^ Z.of_N 18).
Proof.
  assert (H0 : 0 < 1) by lia.
  assert (H1 : 0 <= 0) by lia.
  split; [exact H0 | split; [exact H1 |]].
  exact (zero_result 1 0 18 18 H0 H1).
Defined.

(** ** The reciprocal pair *)

(** Two floored roots of reciprocal ratios, scaled by [t]: their product does
    not exceed [t]. *)
Lemma reciprocal_product_le (a b t x y : Z) :
  0 < a -> 0 < b -> 0 < t -> 0 <= x -> 0 <= y ->
  a * (x * x) <= b * t -> b * (y * y) <= a * t -> x * y <= t.
Proof.
  intros Ha Hb Ht Hx Hy H1 H2.
  destruct (Z_le_gt_dec (x * y) t) as [Hle | Hgt]; [exact Hle | exfalso].
  assert (Hm : (a * (x * x)) * (b * (y * y)) <= (b * t) * (a * t))
    by (apply Z.mul_le_mono_nonneg; nia).
  assert (Hsq : t * t < (x * y) * (x * y))
    by (apply Z.mul_lt_mono_nonneg; lia).
  assert (Hab : 0 < a * b) by nia.
  assert (Hc : (a * b) * (t * t) < (a * b) * ((x * y) * (x * y)))
    by (apply Z.mul_lt_mono_pos_l; assumption).
  replace ((a * (x * x)) * (b * (y * y)))
    with ((a * b) * ((x * y) * (x * y))) in Hm by ring.
  replace ((b * t) * (a * t)) with ((a * b) * (t * t)) in Hm by ring.
  lia.
Qed.

(** One more on each factor and the product exceeds [t]. *)
Lemma reciprocal_product_gt (a b t x y : Z) :
  0 < a -> 0 < b -> 0 < t -> 0 <= x -> 0 <= y ->
  b * t < a * ((x + 1) * (x + 1)) -> a * t < b * ((y + 1) * (y + 1)) ->
  t < (x + 1) * (y + 1).
Proof.
  intros Ha Hb Ht Hx Hy H1 H2.
  destruct (Z_lt_ge_dec t ((x + 1) * (y + 1))) as [Hlt | Hge];
    [exact Hlt | exfalso].
  assert (Hm : (b * t) * (a * t) <
               (a * ((x + 1) * (x + 1))) * (b * ((y + 1) * (y + 1))))
    by (apply Z.mul_lt_mono_nonneg; nia).
  assert (Hxy : 0 <= (x + 1) * (y + 1)) by (apply Z.mul_nonneg_nonneg; lia).
  assert (Hsq : ((x + 1) * (y + 1)) * ((x + 1) * (y + 1)) <= t * t)
    by (apply Z.mul_le_mono_nonneg; lia).
  assert (Hab : 0 < a * b) by nia.
  assert (Hc : (a * b) * (((x + 1) * (y + 1)) * ((x + 1) * (y + 1)))
               <= (a * b) * (t * t))
    by (apply Z.mul_le_mono_nonneg_l; lia).
  replace ((a * ((x + 1) * (x + 1))) * (b * ((y + 1) * (y + 1))))
    with ((a * b) * (((x + 1) * (y + 1)) * ((x + 1) * (y + 1)))) in Hm by ring.
  replace ((b * t) * (a * t)) with ((a * b) * (t * t)) in Hm by ring.
  lia.
Qed.

(** The root of a floored quotient [n / d] is the floor of the root of the
    exact ratio: [d * x^2 <= n < d * (x+1)^2]. *)
Lemma sqrt_div_floor (n d : Z) :
  0 <= n -> 0 < d ->
  d * (Z.sqrt (n / d) * Z.sqrt (n / d)) <= n /\
  n < d * ((Z.sqrt (n / d) + 1) * (Z.sqrt (n / d) + 1)).
Proof.
  intros Hn Hd.
  assert (Hq : 0 <= n / d) by (apply Z.div_pos; assumption).
  pose proof (sqrt_is_isqrt _ Hq) as [_ Hs]. rewrite !Z.pow_2_r in Hs.
  pose proof (Z.mul_div_le n d Hd) as Hlo.
  pose proof (Z.mul_succ_div_gt n d Hd) as Hhi. unfold Z.succ in Hhi.
  set (x := Z.sqrt (n / d)) in *. set (q := n / d) in *.
  split; nia.
Qed.

(** C6: for positive reserves and equal decimals, each of the two results is
    the floor of the exact root of its ratio scaled by [2^96] (so each is off
    by less than one unit), and their product brackets [2^192]:
    [x * y <= 2^192 < (x + 1) * (y + 1)]. *)
Theorem reciprocal_pair (a b : Z) (d : N) :
  0 < a -> 0 < b ->
  exists x y,
    calculate_sqrt_price a b d d = Return x /\
    calculate_sqrt_price b a d d = Return y /\
    a * x ^ 2 <= b * 2 ^ 192 < a * (x + 1) ^ 2 /\
    b * y ^ 2 <= a * 2 ^ 192 < b * (y + 1) ^ 2 /\
    x * y <= 2 ^ 192 < (x + 1) * (y + 1).
Proof.
  intros Ha Hb.
  pose proof (pow_pos 10 d eq_refl) as Hp.
  assert (Ht : 0 < 2 ^ 192) by (apply Z.pow_pos_nonneg; lia).
  assert (HA : 0 < a * 10 ** d) by nia.
  assert (HB : 0 < b * 10 ** d) by nia.
  exists (Z.sqrt (price_ratio_scaled a b d d)),
         (Z.sqrt (price_ratio_scaled b a d d)).
  rewrite !calculate_sqrt_price_valid by lia.
  unfold price_ratio_scaled. change (2 ** 192) with (2 ^ 192).
  assert (HnB : 0 <= b * 10 ** d * 2 ^ 192) by nia.
  assert (HnA : 0 <= a * 10 ** d * 2 ^ 192) by nia.
  destruct (sqrt_div_floor _ _ HnB HA) as [Hx1 Hx2].
  destruct (sqrt_div_floor _ _ HnA HB) as [Hy1 Hy2].
  pose proof (Z.sqrt_nonneg (b * 10 ** d * 2 ^ 192 / (a * 10 ** d))) as Hx0.
  pose proof (Z.sqrt_nonneg (a * 10 ** d * 2 ^ 192 / (b * 10 ** d))) as Hy0.
  set (x := Z.sqrt (b * 10 ** d * 2 ^ 192 / (a * 10 ** d))) in *.
  set (y := Z.sqrt (a * 10 ** d * 2 ^ 192 / (b * 10 ** d))) in *.
  set (t := 2 ^ 192) in *. set (p := 10 ** d) in *.
  rewrite !Z.pow_2_r.
  assert (Hx1' : a * (x * x) <= b * t).
  { apply (Z.mul_le_mono_pos_l _ _ p Hp).
    replace (p * (a * (x * x))) with (a * p * (x * x)) by ring.
    replace (p * (b * t)) with (b * p * t) by ring. exact Hx1. }
  assert (Hx2' : b * t < a * ((x + 1) * (x + 1))).
  { apply (Z.mul_lt_mono_pos_l p _ _ Hp).
    replace (p * (a * ((x + 1) * (x + 1)))) with (a * p * ((x + 1) * (x + 1)))
      by ring.
    replace (p * (b * t)) with (b * p * t) by ring. exact Hx2. }
  assert (Hy1' : b * (y * y) <= a * t).
  { apply (Z.mul_le_mono_pos_l _ _ p Hp).
    replace (p * (b * (y * y))) with (b * p * (y * y)) by ring.
    replace (p * (a * t)) with (a * p * t) by ring. exact Hy1. }
  assert (Hy2' : a * t < b * ((y + 1) * (y + 1))).
  { apply (Z.mul_lt_mono_pos_l p _ _ Hp).
    replace (p * (b * ((y + 1) * (y + 1)))) with (b * p * ((y + 1) * (y + 1)))
      by ring.
    replace (p * (a * t)) with (a * p * t) by ring. exact Hy2. }
  split; [reflexivity | split; [reflexivity |]].
  split; [split; assumption |]. split; [split; assumption |].
  split.
  - apply (reciprocal_product_le a b t x y); assumption.
  - apply (reciprocal_product_gt a b t x y); assumption.
Qed.

Lemma reciprocal_pair_witness :
  0 < 1 /\ 0 < 2 /\
  exists x y,
    calculate_sqrt_price 1 2 18 18 = Return x /\
    calculate_sqrt_price 2 1 18 18 = Return y /\
    1 * x ^ 2 <= 2 * 2 ^ 192 < 1 * (x + 1) ^ 2 /\
    2 * y ^ 2 <= 1 * 2 ^ 192 < 2 * (y + 1) ^ 2 /\
    x * y <= 2 ^ 192 < (x + 1) * (y + 1).
Proof.
  assert (Ha : 0 < 1) by lia.
  assert (Hb : 0 < 2) by lia.
  split; [exact Ha | split; [exact Hb |]].
  exact (reciprocal_pair 1 2 18 Ha Hb).
Defined.

(** ** Negative reserves *)

Lemma negative_quotient (n d : Z) :
  (n < 0 /\ 0 < d) \/ (0 < n /\ d < 0) -> n / d < 0.
Proof.
  intros [[Hn Hd] | [Hn Hd]].
  - apply Z.div_lt_upper_bound; lia.
  - rewrite <- Z.div_opp_opp by lia. apply Z.div_lt_upper_bound; lia.
Qed.

(** C8, as the code has it: the signs of the reserves are not checked.  When
    at least one reserve is negative, a zero [reserve0] still raises
    [InvalidInput]; reserves of opposite signs make the floored quotient
    negative and [math.isqrt] raises its own [ValueError]; a negative
    [reserve0] with a [reserve1] that is negative or zero returns a value, the
    one of the call on the negated reserves. *)
Theorem negative_reserves_outcome (r0 r1 : Z) (d0 d1 : N) :
  r0 < 0 \/ r1 < 0 ->
  (r0 = 0 -> calculate_sqrt_price r0 r1 d0 d1 = Raise InvalidInput) /\
  ((0 < r0 /\ r1 < 0) \/ (r0 < 0 /\ 0 < r1) ->
   calculate_sqrt_price r0 r1 d0 d1 = Raise Py.isqrt_negative) /\
  (r0 < 0 -> r1 <= 0 ->
   calculate_sqrt_price r0 r1 d0 d1 = calculate_sqrt_price (- r0) (- r1) d0 d1 /\
   exists r, calculate_sqrt_price r0 r1 d0 d1 = Return r).
Proof.
  intros _.
  pose proof (pow_pos 10 d0 eq_refl) as Hp0.
  pose proof (pow_pos 10 d1 eq_refl) as Hp1.
  pose proof (pow_pos 2 192 eq_refl) as Ht.
  split; [| split].
  - intros ->. apply calculate_sqrt_price_zero, Z.mul_0_l.
  - intro Hs. rewrite calculate_sqrt_price_nonzero by nia.
    unfold Py.isqrt, price_ratio_scaled.
    set (p0 := 10 ** d0) in *. set (p1 := 10 ** d1) in *.
    set (t := 2 ** 192) in *.
    assert (Hq : r1 * p1 * t / (r0 * p0) < 0).
    { apply negative_quotient.
      assert (Hpt : 0 < p1 * t) by nia. rewrite <- Z.mul_assoc.
      destruct Hs as [[H0 H1] | [H0 H1]]; [left | right]; split; nia. }
    destruct (Z.ltb_spec (r1 * p1 * t / (r0 * p0)) 0); [reflexivity | lia].
  - intros H0 H1.
    assert (E : calculate_sqrt_price r0 r1 d0 d1 =
                calculate_sqrt_price (- r0) (- r1) d0 d1)
      by (apply (common_factor_cancels (-1)); [discriminate | |]; ring).
    split; [exact E |]. rewrite E.
    rewrite calculate_sqrt_price_valid by nia. eexists. reflexivity.
Qed.

Lemma negative_reserves_outcome_witness :
  (0 < 0 \/ -1 < 0) /\ (-1 < 0 \/ 1 < 0) /\ (-3 < 0 \/ -12 < 0) /\
  calculate_sqrt_price 0 (-1) 18 18 = Raise InvalidInput /\
  calculate_sqrt_price (-1) 1 18 18 = Raise Py.isqrt_negative /\
  calculate_sqrt_price (-3) (-12) 18 18 =
  calculate_sqrt_price (- -3) (- -12) 18 18 /\
  exists r, calculate_sqrt_price (-3) (-12) 18 18 = Return r.
Proof.
  assert (Ha : 0 < 0 \/ -1 < 0) by (right; lia).
  assert (Hb : -1 < 0 \/ 1 < 0) by (left; lia).
  assert (Hc : -3 < 0 \/ -12 < 0) by (left; lia).
  assert (Hopp : (0 < -1 /\ 1 < 0) \/ (-1 < 0 /\ 0 < 1)) by (right; lia).
  assert (H0 : -3 < 0) by lia.
  assert (H1 : -12 <= 0) by lia.
  split; [exact Ha | split; [exact Hb | split; [exact Hc |]]].
  split; [| split].
  - exact (proj1 (negative_reserves_outcome 0 (-1) 18 18 Ha) eq_refl).
  - exact (proj1 (proj2 (negative_reserves_outcome (-1) 1 18 18 Hb)) Hopp).
  - exact (proj2 (proj2 (negative_reserves_outcome (-3) (-12) 18 18 Hc)) H0 H1).
Defined.

(** The claim C8 as stated fails: two negative reserves are not rejected; the
    call returns the value of the positive pair. *)
Lemma negative_reserves_not_rejected :
  calculate_sqrt_price (-1) (-1) 18 18 = Return 79228162514264337593543950336 /\
  ~ (forall (r0 r1 : Z) (d0 d1 : N),
       r0 < 0 \/ r1 < 0 ->
       raises_ValueError (calculate_sqrt_price r0 r1 d0 d1)).
Proof.
  assert (E : calculate_sqrt_price (-1) (-1) 18 18 =
              Return 79228162514264337593543950336)
    by (vm_compute; reflexivity).
  split; [exact E |].
  intro H. destruct (H (-1) (-1) 18%N 18%N) as [msg Hm]; [left; lia |].
  rewrite E in Hm. discriminate Hm.
Qed.

(** * Further properties of [calculate_sqrt_price] *)

(** ** The result as a function of the two scaled amounts *)

(** The evaluation on valid inputs, with the powers written out. *)
Lemma valid_eval (r0 r1 : Z) (d0 d1 : N) :
  0 <= r0 -> 0 <= r1 -> r0 * 10 ^ Z.of_N d0 <> 0 ->
  calculate_sqrt_price r0 r1 d0 d1 =
  Return (Z.sqrt ((r1 * 10 ^ Z.of_N d1 * 2 ^ 192) / (r0 * 10 ^ Z.of_N d0))).
Proof. exact (calculate_sqrt_price_valid r0 r1 d0 d1). Qed.

Lemma ten_pow_pos (d : N) : 0 < 10 ^ Z.of_N d.
Proof. apply Z.pow_pos_nonneg; lia. Qed.

Lemma two_pow_192_pos : 0 < 2 ^ 192.
Proof. reflexivity. Qed.

Lemma amount_pos (r : Z) (d : N) : 0 <= r -> r * 10 ^ Z.of_N d <> 0 -> 0 < r * 10 ^ Z.of_N d.
Proof. intros Hr Hnz. pose proof (ten_pow_pos d). nia. Qed.

Lemma amount_nonneg (r : Z) (d : N) : 0 <= r -> 0 <= r * 10 ^ Z.of_N d.
Proof. intro Hr. pose proof (ten_pow_pos d). nia. Qed.

(** Only one non-negative [y] has [d * y^2 <= n < d * (y+1)^2]. *)
Lemma sqrt_div_floor_unique (n d y : Z) :
  0 <= n -> 0 < d -> 0 <= y ->
  d * (y * y) <= n < d * ((y + 1) * (y + 1)) ->
  y = Z.sqrt (n / d).
Proof.
  intros Hn Hd Hy [Hlo Hhi]. symmetry. apply Z.sqrt_unique. unfold Z.succ. split.
  - apply Z.div_le_lower_bound; assumption.
  - apply Z.div_lt_upper_bound; assumption.
Qed.

(** The root of the floored quotient is monotone in the exact ratio [n / d],
    compared by cross multiplication. *)
Lemma sqrt_div_le_cross (n d n' d' : Z) :
  0 <= n -> 0 < d -> 0 <= n' -> 0 < d' ->
  n * d' <= n' * d ->
  Z.sqrt (n / d) <= Z.sqrt (n' / d').
Proof.
  intros Hn Hd Hn' Hd' Hc.
  destruct (sqrt_div_floor n d Hn Hd) as [Hlo _].
  pose proof (Z.sqrt_nonneg (n / d)) as Hx.
  set (x := Z.sqrt (n / d)) in *.
  apply Z.sqrt_le_square; [apply Z.div_pos; assumption | exact Hx |].
  apply Z.div_le_lower_bound; [exact Hd' |].
  apply (Z.mul_le_mono_pos_l _ _ d Hd).
  assert (H1 : d' * (d * (x * x)) <= d' * n)
    by (apply Z.mul_le_mono_nonneg_l; lia).
  replace (d * (d' * (x * x))) with (d' * (d * (x * x))) by ring.
  lia.
Qed.

(** X1: on valid inputs the result [x] is the floor of the exact value
    [sqrt (tokenAmount1 / tokenAmount0) * 2^96]: flooring the quotient before
    the root loses nothing.  [x] is the only non-negative integer with
    [tokenAmount0 * x^2 <= tokenAmount1 * 2^192 < tokenAmount0 * (x+1)^2]. *)
Theorem result_is_floor_of_exact_root (r0 r1 : Z) (d0 d1 : N) :
  0 <= r0 -> 0 <= r1 -> r0 * 10 ^ Z.of_N d0 <> 0 ->
  exists x,
    calculate_sqrt_price r0 r1 d0 d1 = Return x /\
    0 <= x /\
    (r0 * 10 ^ Z.of_N d0) * x ^ 2 <= r1 * 10 ^ Z.of_N d1 * 2 ^ 192
      < (r0 * 10 ^ Z.of_N d0) * (x + 1) ^ 2 /\
    forall y, 0 <= y ->
      (r0 * 10 ^ Z.of_N d0) * y ^ 2 <= r1 * 10 ^ Z.of_N d1 * 2 ^ 192
        < (r0 * 10 ^ Z.of_N d0) * (y + 1) ^ 2 ->
      y = x.
Proof.
  intros Hr0 Hr1 Hnz.
  pose proof (amount_pos r0 d0 Hr0 Hnz) as HA.
  pose proof (amount_nonneg r1 d1 Hr1) as HB.
  assert (Hn : 0 <= r1 * 10 ^ Z.of_N d1 * 2 ^ 192)
    by (apply Z.mul_nonneg_nonneg; [exact HB | discriminate]).
  eexists. split; [apply valid_eval; assumption |].
  split; [apply Z.sqrt_nonneg |]. rewrite !Z.pow_2_r. split.
  - apply sqrt_div_floor; assumption.
  - intros y Hy Hb. rewrite !Z.pow_2_r in Hb.
    apply sqrt_div_floor_unique; assumption.
Qed.

Lemma result_is_floor_of_exact_root_witness :
  0 <= 100 /\ 0 <= 99 /\ 100 * 10 ^ Z.of_N 6 <> 0 /\
  exists x,
    calculate_sqrt_price 100 99 6 18 = Return x /\
    0 <= x /\
    (100 * 10 ^ Z.of_N 6) * x ^ 2 <= 99 * 10 ^ Z.of_N 18 * 2 ^ 192
      < (100 * 10 ^ Z.of_N 6) * (x + 1) ^ 2 /\
    forall y, 0 <= y ->
      (100 * 10 ^ Z.of_N 6) * y ^ 2 <= 99 * 10 ^ Z.of_N 18 * 2 ^ 192
        < (100 * 10 ^ Z.of_N 6) * (y + 1) ^ 2 ->
      y = x.
Proof.
  assert (H0 : 0 <= 100) by lia.
  assert (H1 : 0 <= 99) by lia.
  assert (Hnz : 100 * 10 ^ Z.of_N 6 <> 0) by (vm_compute; discriminate).
  split; [exact H0 | split; [exact H1 | split; [exact Hnz |]]].
  exact (result_is_floor_of_exact_root 100 99 6 18 H0 H1 Hnz).
Defined.

(** X2: the result is monotone in the price ratio
    [tokenAmount1 / tokenAmount0], also across different decimals: a pair with
    a ratio at least as large gets a result at least as large. *)
Theorem monotone_in_price_ratio (r0 r1 r0' r1' : Z) (d0 d1 d0' d1' : N) :
  0 <= r0 -> 0 <= r1 -> r0 * 10 ^ Z.of_N d0 <> 0 ->
  0 <= r0' -> 0 <= r1' -> r0' * 10 ^ Z.of_N d0' <> 0 ->
  (r1 * 10 ^ Z.of_N d1) * (r0' * 10 ^ Z.of_N d0')
    <= (r1' * 10 ^ Z.of_N d1') * (r0 * 10 ^ Z.of_N d0) ->
  exists x x',
    calculate_sqrt_price r0 r1 d0 d1 = Return x /\
    calculate_sqrt_price r0' r1' d0' d1' = Return x' /\
    x <= x'.
Proof.
  intros Hr0 Hr1 Hnz Hr0' Hr1' Hnz' Hc.
  pose proof (amount_pos r0 d0 Hr0 Hnz) as HA.
  pose proof (amount_pos r0' d0' Hr0' Hnz') as HA'.
  pose proof (amount_nonneg r1 d1 Hr1) as HB.
  pose proof (amount_nonneg r1' d1' Hr1') as HB'.
  do 2 eexists. split; [apply valid_eval; assumption |].
  split; [apply valid_eval; assumption |].
  set (A := r0 * 10 ^ Z.of_N d0) in *. set (B := r1 * 10 ^ Z.of_N d1) in *.
  set (A' := r0' * 10 ^ Z.of_N d0') in *. set (B' := r1' * 10 ^ Z.of_N d1') in *.
  pose proof two_pow_192_pos as Ht. set (t := 2 ^ 192) in *.
  apply sqrt_div_le_cross; try assumption; try (apply Z.mul_nonneg_nonneg; lia).
  replace (B * t * A') with (B * A' * t) by ring.
  replace (B' * t * A) with (B' * A * t) by ring.
  apply Z.mul_le_mono_nonneg_r; lia.
Qed.

Lemma monotone_in_price_ratio_witness :
  0 <= 100 /\ 0 <= 99 /\ 100 * 10 ^ Z.of_N 18 <> 0 /\
  0 <= 1 /\ 0 <= 1 /\ 1 * 10 ^ Z.of_N 6 <> 0 /\
  (99 * 10 ^ Z.of_N 18) * (1 * 10 ^ Z.of_N 6)
    <= (1 * 10 ^ Z.of_N 6) * (100 * 10 ^ Z.of_N 18) /\
  exists x x',
    calculate_sqrt_price 100 99 18 18 = Return x /\
    calculate_sqrt_price 1 1 6 6 = Return x' /\
    x <= x'.
Proof.
  assert (H0 : 0 <= 100) by lia.
  assert (H1 : 0 <= 99) by lia.
  assert (Hnz : 100 * 10 ^ Z.of_N 18 <> 0) by (vm_compute; discriminate).
  assert (H0' : 0 <= 1) by lia.
  assert (Hnz' : 1 * 10 ^ Z.of_N 6 <> 0) by (vm_compute; discriminate).
  assert (Hc : (99 * 10 ^ Z.of_N 18) * (1 * 10 ^ Z.of_N 6)
               <= (1 * 10 ^ Z.of_N 6) * (100 * 10 ^ Z.of_N 18))
    by (vm_compute; discriminate).
  split; [exact H0 | split; [exact H1 | split; [exact Hnz |]]].
  split; [exact H0' | split; [exact H0' | split; [exact Hnz' |]]].
  split; [exact Hc |].
  exact (monotone_in_price_ratio 100 99 1 1 18 18 6 6 H0 H1 Hnz H0' H0' Hnz' Hc).
Defined.

(** X3: the result depends on the inputs only through the ratio
    [tokenAmount1 / tokenAmount0]: two valid inputs with equal ratios, whatever
    their reserves and decimals, get the same result. *)
Theorem equal_ratio_equal_result (r0 r1 r0' r1' : Z) (d0 d1 d0' d1' : N) :
  0 <= r0 -> 0 <= r1 -> r0 * 10 ^ Z.of_N d0 <> 0 ->
  0 <= r0' -> 0 <= r1' -> r0' * 10 ^ Z.of_N d0' <> 0 ->
  (r1 * 10 ^ Z.of_N d1) * (r0' * 10 ^ Z.of_N d0')
    = (r1' * 10 ^ Z.of_N d1') * (r0 * 10 ^ Z.of_N d0) ->
  calculate_sqrt_price r0 r1 d0 d1 = calculate_sqrt_price r0' r1' d0' d1'.
Proof.
  intros Hr0 Hr1 Hnz Hr0' Hr1' Hnz' Hc.
  pose proof (amount_pos r0 d0 Hr0 Hnz) as HA.
  pose proof (amount_pos r0' d0' Hr0' Hnz') as HA'.
  pose proof (amount_nonneg r1 d1 Hr1) as HB.
  pose proof (amount_nonneg r1' d1' Hr1') as HB'.
  rewrite !valid_eval by assumption. f_equal.
  set (A := r0 * 10 ^ Z.of_N d0) in *. set (B := r1 * 10 ^ Z.of_N d1) in *.
  set (A' := r0' * 10 ^ Z.of_N d0') in *. set (B' := r1' * 10 ^ Z.of_N d1') in *.
  pose proof two_pow_192_pos as Ht. set (t := 2 ^ 192) in *.
  assert (Hn : 0 <= B * t) by (apply Z.mul_nonneg_nonneg; lia).
  assert (Hn' : 0 <= B' * t) by (apply Z.mul_nonneg_nonneg; lia).
  assert (E : B * t * A' = B' * t * A).
  { replace (B * t * A') with (B * A' * t) by ring.
    replace (B' * t * A) with (B' * A * t) by ring. rewrite Hc. reflexivity. }
  apply Z.le_antisymm; apply sqrt_div_le_cross; try assumption; lia.
Qed.

Lemma equal_ratio_equal_result_witness :
  0 <= 2 /\ 0 <= 3 /\ 2 * 10 ^ Z.of_N 6 <> 0 /\
  0 <= 4000 /\ 0 <= 6 /\ 4000 * 10 ^ Z.of_N 3 <> 0 /\
  (3 * 10 ^ Z.of_N 18) * (4000 * 10 ^ Z.of_N 3)
    = (6 * 10 ^ Z.of_N 18) * (2 * 10 ^ Z.of_N 6) /\
  calculate_sqrt_price 2 3 6 18 = calculate_sqrt_price 4000 6 3 18.
Proof.
  assert (H0 : 0 <= 2) by lia.
  assert (H1 : 0 <= 3) by lia.
  assert (Hnz : 2 * 10 ^ Z.of_N 6 <> 0) by (vm_compute; discriminate).
  assert (H0' : 0 <= 4000) by lia.
  assert (H1' : 0 <= 6) by lia.
  assert (Hnz' : 4000 * 10 ^ Z.of_N 3 <> 0) by (vm_compute; discriminate).
  assert (Hc : (3 * 10 ^ Z.of_N 18) * (4000 * 10 ^ Z.of_N 3)
               = (6 * 10 ^ Z.of_N 18) * (2 * 10 ^ Z.of_N 6))
    by (vm_compute; reflexivity).
  split; [exact H0 | split; [exact H1 | split; [exact Hnz |]]].
  split; [exact H0' | split; [exact H1' | split; [exact Hnz' |]]].
  split; [exact Hc |].
  exact (equal_ratio_equal_result 2 3 4000 6 6 18 3 18 H0 H1 Hnz H0' H1' Hnz' Hc).
Defined.

(** ** Decimals and reserves *)

Lemma pow_zero (b : Z) : b ** 0 = 1.
Proof. reflexivity. Qed.

Lemma pow_add (b : Z) (e k : N) : b ** (e + k) = b ** k * b ** e.
Proof.
  unfold Py.pow. rewrite N2Z.inj_add, Z.pow_add_r by lia. ring.
Qed.

(** X4: the decimals only scale the reserves: the call is the one on the
    scaled amounts with both decimals 0.  This holds for reserves of any
    sign, the raised exceptions included. *)
Theorem decimals_fold_into_reserves (r0 r1 : Z) (d0 d1 : N) :
  calculate_sqrt_price r0 r1 d0 d1 =
  calculate_sqrt_price (r0 * 10 ^ Z.of_N d0) (r1 * 10 ^ Z.of_N d1) 0 0.
Proof.
  symmetry. apply (common_factor_cancels 1); [discriminate | |];
    rewrite pow_zero; unfold Py.pow; ring.
Qed.

(** X5: adding the same number [k] to both decimals leaves the outcome
    unchanged, for every [k] and for reserves of any sign. *)
Theorem equal_decimal_shift_by (k : N) (r0 r1 : Z) (d0 d1 : N) :
  calculate_sqrt_price r0 r1 (d0 + k) (d1 + k) =
  calculate_sqrt_price r0 r1 d0 d1.
Proof.
  apply (common_factor_cancels (10 ** k)).
  - pose proof (pow_pos 10 k eq_refl). lia.
  - rewrite pow_add. ring.
  - rewrite pow_add. ring.
Qed.

(** ** Square factors *)

Lemma two_pow_192_square : 2 ^ 192 = 2 ^ 96 * 2 ^ 96.
Proof. reflexivity. Qed.

(** X6: when [tokenAmount1] is [k^2] times [tokenAmount0] the result is exactly
    [k * 2^96], with no rounding; the reserves may have any sign as long as
    the scaled amount of token0 is not zero. *)
Theorem square_ratio_exact (k r0 r1 : Z) (d0 d1 : N) :
  0 <= k -> r0 * 10 ^ Z.of_N d0 <> 0 ->
  r1 * 10 ^ Z.of_N d1 = k * k * (r0 * 10 ^ Z.of_N d0) ->
  calculate_sqrt_price r0 r1 d0 d1 = Return (k * 2 ^ 96).
Proof.
  intros Hk Hnz E.
  rewrite calculate_sqrt_price_nonzero by exact Hnz.
  unfold price_ratio_scaled.
  change (10 ** d1) with (10 ^ Z.of_N d1). change (10 ** d0) with (10 ^ Z.of_N d0).
  change (2 ** 192) with (2 ^ 192).
  rewrite E, two_pow_192_square.
  set (A := r0 * 10 ^ Z.of_N d0) in *. set (s := 2 ^ 96).
  replace (k * k * A * (s * s)) with ((k * s) * (k * s) * A) by ring.
  rewrite Z.div_mul by exact Hnz.
  assert (Hs : 0 <= k * s) by (apply Z.mul_nonneg_nonneg; [exact Hk | discriminate]).
  unfold Py.isqrt.
  destruct (Z.ltb_spec ((k * s) * (k * s)) 0) as [Hneg | _]; [nia |].
  rewrite Z.sqrt_square by exact Hs. reflexivity.
Qed.

Lemma square_ratio_exact_witness :
  0 <= 3 /\ 25 * 10 ^ Z.of_N 0 <> 0 /\
  225 * 10 ^ Z.of_N 0 = 3 * 3 * (25 * 10 ^ Z.of_N 0) /\
  calculate_sqrt_price 25 225 0 0 = Return (3 * 2 ^ 96).
Proof.
  assert (Hk : 0 <= 3) by lia.
  assert (Hnz : 25 * 10 ^ Z.of_N 0 <> 0) by (vm_compute; discriminate).
  assert (E : 225 * 10 ^ Z.of_N 0 = 3 * 3 * (25 * 10 ^ Z.of_N 0))
    by (vm_compute; reflexivity).
  split; [exact Hk | split; [exact Hnz | split; [exact E |]]].
  exact (square_ratio_exact 3 25 225 0 0 Hk Hnz E).
Defined.

(** Dividing the ratio by [k^2] divides the floored root by [k], floored. *)
Lemma sqrt_div_square (n d k : Z) :
  0 <= n -> 0 < d -> 0 < k ->
  Z.sqrt (n / (k * k * d)) = Z.sqrt (n / d) / k.
Proof.
  intros Hn Hd Hk.
  destruct (sqrt_div_floor n d Hn Hd) as [Hlo Hhi].
  pose proof (Z.sqrt_nonneg (n / d)) as Hx.
  set (x := Z.sqrt (n / d)) in *.
  pose proof (Z.mul_div_le x k Hk) as Hm1.
  pose proof (Z.mul_succ_div_gt x k Hk) as Hm2. unfold Z.succ in Hm2.
  assert (Hm : 0 <= x / k) by (apply Z.div_pos; lia).
  set (m := x / k) in *.
  symmetry. apply sqrt_div_floor_unique; [exact Hn | nia | exact Hm |].
  split.
  - apply Z.le_trans with (d * (x * x)); [| exact Hlo].
    replace (k * k * d * (m * m)) with (d * ((k * m) * (k * m))) by ring.
    apply Z.mul_le_mono_nonneg_l; [lia |].
    apply Z.mul_le_mono_nonneg; nia.
  - apply Z.lt_le_trans with (d * ((x + 1) * (x + 1))); [exact Hhi |].
    replace (k * k * d * ((m + 1) * (m + 1)))
      with (d * ((k * (m + 1)) * (k * (m + 1)))) by ring.
    apply Z.mul_le_mono_nonneg_l; [lia |].
    apply Z.mul_le_mono_nonneg; lia.
Qed.

(** Multiplying the ratio by [k^2] multiplies the floored root by [k], up to
    less than [k]. *)
Lemma sqrt_mul_square (n d k : Z) :
  0 <= n -> 0 < d -> 0 < k ->
  k * Z.sqrt (n / d) <= Z.sqrt (k * k * n / d) < k * (Z.sqrt (n / d) + 1).
Proof.
  intros Hn Hd Hk.
  destruct (sqrt_div_floor n d Hn Hd) as [Hlo Hhi].
  pose proof (Z.sqrt_nonneg (n / d)) as Hx.
  set (x := Z.sqrt (n / d)) in *.
  assert (Hkk : 0 < k * k) by nia.
  assert (Hn' : 0 <= k * k * n) by nia.
  assert (Hq : 0 <= k * k * n / d) by (apply Z.div_pos; assumption).
  split.
  - apply Z.sqrt_le_square; [exact Hq | nia |].
    apply Z.div_le_lower_bound; [exact Hd |].
    replace (d * (k * x * (k * x))) with (k * k * (d * (x * x))) by ring.
    apply Z.mul_le_mono_nonneg_l; lia.
  - apply Z.sqrt_lt_square; [exact Hq | nia |].
    apply Z.div_lt_upper_bound; [exact Hd |].
    replace (d * (k * (x + 1) * (k * (x + 1))))
      with (k * k * (d * ((x + 1) * (x + 1)))) by ring.
    apply Z.mul_lt_mono_pos_l; assumption.
Qed.

(** X7: multiplying [reserve0] by [k^2] divides the result by [k], floored:
    the result on [(k^2 * reserve0, reserve1)] is [x // k] for the result [x]
    on [(reserve0, reserve1)]. *)
Theorem square_factor_on_reserve0 (k r0 r1 : Z) (d0 d1 : N) :
  0 < k -> 0 < r0 -> 0 <= r1 ->
  exists x,
    calculate_sqrt_price r0 r1 d0 d1 = Return x /\
    calculate_sqrt_price (k * k * r0) r1 d0 d1 = Return (x / k).
Proof.
  intros Hk Hr0 Hr1.
  pose proof (ten_pow_pos d0) as Hp0.
  assert (HA : 0 < r0 * 10 ^ Z.of_N d0) by nia.
  assert (Hkk : 0 < k * k) by nia.
  assert (HA' : 0 < k * k * r0 * 10 ^ Z.of_N d0) by nia.
  pose proof (amount_nonneg r1 d1 Hr1) as HB.
  assert (Hn : 0 <= r1 * 10 ^ Z.of_N d1 * 2 ^ 192)
    by (apply Z.mul_nonneg_nonneg; [exact HB | discriminate]).
  eexists. split; [apply valid_eval; lia |].
  rewrite valid_eval by nia. f_equal.
  rewrite <- (sqrt_div_square _ _ k Hn HA Hk).
  f_equal. f_equal. ring.
Qed.

Lemma square_factor_on_reserve0_witness :
  0 < 3 /\ 0 < 7 /\ 0 <= 5 /\
  exists x,
    calculate_sqrt_price 7 5 18 6 = Return x /\
    calculate_sqrt_price (3 * 3 * 7) 5 18 6 = Return (x / 3).
Proof.
  assert (Hk : 0 < 3) by lia.
  assert (H0 : 0 < 7) by lia.
  assert (H1 : 0 <= 5) by lia.
  split; [exact Hk | split; [exact H0 | split; [exact H1 |]]].
  exact (square_factor_on_reserve0 3 7 5 18 6 Hk H0 H1).
Defined.

(** X8: multiplying [reserve1] by [k^2] multiplies the result by [k] up to
    rounding: the new result lies in [k * x .. k * x + k - 1]. *)
Theorem square_factor_on_reserve1 (k r0 r1 : Z) (d0 d1 : N) :
  0 < k -> 0 < r0 -> 0 <= r1 ->
  exists x x',
    calculate_sqrt_price r0 r1 d0 d1 = Return x /\
    calculate_sqrt_price r0 (k * k * r1) d0 d1 = Return x' /\
    k * x <= x' <= k * x + (k - 1).
Proof.
  intros Hk Hr0 Hr1.
  pose proof (ten_pow_pos d0) as Hp0.
  assert (HA : 0 < r0 * 10 ^ Z.of_N d0) by nia.
  assert (Hkk : 0 < k * k) by nia.
  pose proof (amount_nonneg r1 d1 Hr1) as HB.
  assert (Hn : 0 <= r1 * 10 ^ Z.of_N d1 * 2 ^ 192)
    by (apply Z.mul_nonneg_nonneg; [exact HB | discriminate]).
  do 2 eexists. split; [apply valid_eval; lia |].
  split; [apply valid_eval; nia |].
  pose proof (sqrt_mul_square _ _ k Hn HA Hk) as [Hlo Hhi].
  replace (k * k * r1 * 10 ^ Z.of_N d1 * 2 ^ 192)
    with (k * k * (r1 * 10 ^ Z.of_N d1 * 2 ^ 192)) by ring.
  lia.
Qed.

Lemma square_factor_on_reserve1_witness :
  0 < 3 /\ 0 < 7 /\ 0 <= 5 /\
  exists x x',
    calculate_sqrt_price 7 5 18 6 = Return x /\
    calculate_sqrt_price 7 (3 * 3 * 5) 18 6 = Return x' /\
    3 * x <= x' <= 3 * x + (3 - 1).
Proof.
  assert (Hk : 0 < 3) by lia.
  assert (H0 : 0 < 7) by lia.
  assert (H1 : 0 <= 5) by lia.
  split; [exact Hk | split; [exact H0 | split; [exact H1 |]]].
  exact (square_factor_on_reserve1 3 7 5 18 6 Hk H0 H1).
Defined.

Lemma ten_pow_add_2 (d : N) : 10 ^ Z.of_N (d + 2) = 10 * 10 * 10 ^ Z.of_N d.
Proof.
  rewrite N2Z.inj_add, Z.pow_add_r by lia. change (10 ^ Z.of_N 2) with 100. ring.
Qed.

(** X9: two more decimals on token0 divide the result by ten, floored; two
    more decimals on token1 multiply it by ten up to rounding (the new result
    lies in [10 * x .. 10 * x + 9]). *)
Theorem two_more_decimals (r0 r1 : Z) (d0 d1 : N) :
  0 < r0 -> 0 <= r1 ->
  exists x x',
    calculate_sqrt_price r0 r1 d0 d1 = Return x /\
    calculate_sqrt_price r0 r1 (d0 + 2) d1 = Return (x / 10) /\
    calculate_sqrt_price r0 r1 d0 (d1 + 2) = Return x' /\
    10 * x <= x' <= 10 * x + 9.
Proof.
  intros Hr0 Hr1.
  pose proof (ten_pow_pos d0) as Hp0.
  assert (HA : 0 < r0 * 10 ^ Z.of_N d0) by nia.
  pose proof (amount_nonneg r1 d1 Hr1) as HB.
  assert (Hn : 0 <= r1 * 10 ^ Z.of_N d1 * 2 ^ 192)
    by (apply Z.mul_nonneg_nonneg; [exact HB | discriminate]).
  assert (Hten : 0 < 10) by reflexivity.
  do 2 eexists. split; [apply valid_eval; lia |].
  split; [| split].
  - rewrite valid_eval; [| lia | exact Hr1 | rewrite ten_pow_add_2; nia].
    f_equal. rewrite <- (sqrt_div_square _ _ 10 Hn HA Hten).
    rewrite ten_pow_add_2. f_equal. f_equal. ring.
  - apply valid_eval; lia.
  - pose proof (sqrt_mul_square _ _ 10 Hn HA Hten) as [Hlo Hhi].
    rewrite ten_pow_add_2.
    replace (r1 * (10 * 10 * 10 ^ Z.of_N d1) * 2 ^ 192)
      with (10 * 10 * (r1 * 10 ^ Z.of_N d1 * 2 ^ 192)) by ring.
    lia.
Qed.

Lemma two_more_decimals_witness :
  0 < 3 /\ 0 <= 7 /\
  exists x x',
    calculate_sqrt_price 3 7 6 18 = Return x /\
    calculate_sqrt_price 3 7 (6 + 2) 18 = Return (x / 10) /\
    calculate_sqrt_price 3 7 6 (18 + 2) = Return x' /\
    10 * x <= x' <= 10 * x + 9.
Proof.
  assert (H0 : 0 < 3) by lia.
  assert (H1 : 0 <= 7) by lia.
  split; [exact H0 | split; [exact H1 |]].
  exact (two_more_decimals 3 7 6 18 H0 H1).
Defined.

(** ** The result against [2^96] *)

(** X10: on valid inputs the result reaches [k * 2^96] exactly when the scaled
    amount of token1 is at least [k^2] times that of token0.  With [k = 1]:
    the result is at least [2^96] exactly when the price is at least one. *)
Theorem reaches_multiple_iff (k r0 r1 : Z) (d0 d1 : N) :
  0 <= k -> 0 <= r0 -> 0 <= r1 -> r0 * 10 ^ Z.of_N d0 <> 0 ->
  exists x,
    calculate_sqrt_price r0 r1 d0 d1 = Return x /\
    (k * 2 ^ 96 <= x <-> k * k * (r0 * 10 ^ Z.of_N d0) <= r1 * 10 ^ Z.of_N d1).
Proof.
  intros Hk Hr0 Hr1 Hnz.
  pose proof (amount_pos r0 d0 Hr0 Hnz) as HA.
  pose proof (amount_nonneg r1 d1 Hr1) as HB.
  eexists. split; [apply valid_eval; assumption |].
  set (A := r0 * 10 ^ Z.of_N d0) in *. set (B := r1 * 10 ^ Z.of_N d1) in *.
  rewrite two_pow_192_square.
  assert (Hs : 0 < 2 ^ 96) by reflexivity. set (s := 2 ^ 96) in *.
  assert (Hss : 0 < s * s) by nia.
  assert (Hks : 0 <= k * s) by (apply Z.mul_nonneg_nonneg; lia).
  assert (Hn : 0 <= B * (s * s)) by (apply Z.mul_nonneg_nonneg; lia).
  assert (Hq : 0 <= B * (s * s) / A) by (apply Z.div_pos; assumption).
  rewrite <- (Z.sqrt_le_square _ (k * s) Hq Hks).
  split.
  - intro H. pose proof (Z.mul_div_le (B * (s * s)) A HA) as Hd.
    assert (H1 : A * ((k * s) * (k * s)) <= A * (B * (s * s) / A))
      by (apply Z.mul_le_mono_nonneg_l; lia).
    apply (Z.mul_le_mono_pos_r _ _ (s * s) Hss).
    replace (k * k * A * (s * s)) with (A * ((k * s) * (k * s))) by ring.
    lia.
  - intro H. apply Z.div_le_lower_bound; [exact HA |].
    replace (A * ((k * s) * (k * s))) with (k * k * A * (s * s)) by ring.
    apply Z.mul_le_mono_nonneg_r; lia.
Qed.

Lemma reaches_multiple_iff_witness :
  0 <= 1 /\ 0 <= 100 /\ 0 <= 99 /\ 100 * 10 ^ Z.of_N 6 <> 0 /\
  exists x,
    calculate_sqrt_price 100 99 6 18 = Return x /\
    (1 * 2 ^ 96 <= x <->
     1 * 1 * (100 * 10 ^ Z.of_N 6) <= 99 * 10 ^ Z.of_N 18).
Proof.
  assert (Hk : 0 <= 1) by lia.
  assert (H0 : 0 <= 100) by lia.
  assert (H1 : 0 <= 99) by lia.
  assert (Hnz : 100 * 10 ^ Z.of_N 6 <> 0) by (vm_compute; discriminate).
  split; [exact Hk | split; [exact H0 | split; [exact H1 | split; [exact Hnz |]]]].
  exact (reaches_multiple_iff 1 100 99 6 18 Hk H0 H1 Hnz).
Defined.

(** ** Swapping and chaining tokens *)

(** X11: swapping the two tokens, each with its own decimals, gives the
    reciprocal price up to rounding: the two results [x] and [y] satisfy
    [x * y <= 2^192 < (x + 1) * (y + 1)]. *)
Theorem swapped_tokens_reciprocal (a b : Z) (da db : N) :
  0 < a -> 0 < b ->
  exists x y,
    calculate_sqrt_price a b da db = Return x /\
    calculate_sqrt_price b a db da = Return y /\
    x * y <= 2 ^ 192 < (x + 1) * (y + 1).
Proof.
  intros Ha Hb.
  pose proof (ten_pow_pos da) as Hpa. pose proof (ten_pow_pos db) as Hpb.
  assert (HA : 0 < a * 10 ^ Z.of_N da) by nia.
  assert (HB : 0 < b * 10 ^ Z.of_N db) by nia.
  do 2 eexists. split; [apply valid_eval; lia |].
  split; [apply valid_eval; lia |].
  set (A := a * 10 ^ Z.of_N da) in *. set (B := b * 10 ^ Z.of_N db) in *.
  pose proof two_pow_192_pos as Ht. set (t := 2 ^ 192) in *.
  assert (HnB : 0 <= B * t) by (apply Z.mul_nonneg_nonneg; lia).
  assert (HnA : 0 <= A * t) by (apply Z.mul_nonneg_nonneg; lia).
  destruct (sqrt_div_floor _ _ HnB HA) as [Hx1 Hx2].
  destruct (sqrt_div_floor _ _ HnA HB) as [Hy1 Hy2].
  pose proof (Z.sqrt_nonneg (B * t / A)) as Hx0.
  pose proof (Z.sqrt_nonneg (A * t / B)) as Hy0.
  split.
  - apply (reciprocal_product_le A B); assumption.
  - apply (reciprocal_product_gt A B); assumption.
Qed.

Lemma swapped_tokens_reciprocal_witness :
  0 < 3 /\ 0 < 7 /\
  exists x y,
    calculate_sqrt_price 3 7 6 18 = Return x /\
    calculate_sqrt_price 7 3 18 6 = Return y /\
    x * y <= 2 ^ 192 < (x + 1) * (y + 1).
Proof.
  assert (Ha : 0 < 3) by lia.
  assert (Hb : 0 < 7) by lia.
  split; [exact Ha | split; [exact Hb |]].
  exact (swapped_tokens_reciprocal 3 7 6 18 Ha Hb).
Defined.

(** Two floored roots along a chain [a -> b -> c], against the exact root of
    [a -> c]; [s] is the scale and [t = s * s]. *)
Lemma chain_product_lower (a b c s x1 x2 : Z) :
  0 < a -> 0 < b -> 0 <= c -> 0 < s -> 0 <= x1 -> 0 <= x2 ->
  a * (x1 * x1) <= b * (s * s) ->
  b * (x2 * x2) <= c * (s * s) ->
  a * ((x1 * x2 / s) * (x1 * x2 / s)) <= c * (s * s).
Proof.
  intros Ha Hb Hc Hs Hx1 Hx2 H1 H2.
  assert (Hss : 0 < s * s) by nia.
  assert (Hp : 0 <= x1 * x2) by (apply Z.mul_nonneg_nonneg; assumption).
  assert (Hm : (a * (x1 * x1)) * (b * (x2 * x2)) <= (b * (s * s)) * (c * (s * s))).
  { apply Z.mul_le_mono_nonneg; try assumption;
      repeat apply Z.mul_nonneg_nonneg; lia. }
  assert (Hab : a * ((x1 * x2) * (x1 * x2)) <= c * (s * s) * (s * s)).
  { apply (Z.mul_le_mono_pos_l _ _ b Hb).
    replace (b * (a * (x1 * x2 * (x1 * x2))))
      with (a * (x1 * x1) * (b * (x2 * x2))) by ring.
    replace (b * (c * (s * s) * (s * s)))
      with (b * (s * s) * (c * (s * s))) by ring.
    exact Hm. }
  pose proof (Z.mul_div_le (x1 * x2) s Hs) as Hd.
  assert (Hm0 : 0 <= x1 * x2 / s) by (apply Z.div_pos; assumption).
  set (p := x1 * x2) in *. set (m := p / s) in *.
  assert (Hsq : (s * m) * (s * m) <= p * p)
    by (apply Z.mul_le_mono_nonneg; nia).
  assert (Ha2 : a * ((s * m) * (s * m)) <= a * (p * p))
    by (apply Z.mul_le_mono_nonneg_l; lia).
  apply (Z.mul_le_mono_pos_l _ _ (s * s) Hss).
  replace (s * s * (a * (m * m))) with (a * ((s * m) * (s * m))) by ring.
  replace (s * s * (c * (s * s))) with (c * (s * s) * (s * s)) by ring.
  lia.
Qed.

Lemma chain_product_upper (a b c s x1 x2 x3 : Z) :
  0 < a -> 0 < b -> 0 <= c -> 0 < s -> 0 <= x1 -> 0 <= x2 -> 0 <= x3 ->
  b * (s * s) < a * ((x1 + 1) * (x1 + 1)) ->
  c * (s * s) < b * ((x2 + 1) * (x2 + 1)) ->
  a * (x3 * x3) <= c * (s * s) ->
  x3 * s < (x1 + 1) * (x2 + 1).
Proof.
  intros Ha Hb Hc Hs Hx1 Hx2 Hx3 H1 H2 H3.
  assert (Hss : 0 < s * s) by nia.
  assert (Hm : (b * (s * s)) * (c * (s * s))
               < (a * ((x1 + 1) * (x1 + 1))) * (b * ((x2 + 1) * (x2 + 1)))).
  { apply Z.mul_lt_mono_nonneg; try assumption;
      repeat apply Z.mul_nonneg_nonneg; lia. }
  set (u := x1 + 1) in *. set (v := x2 + 1) in *.
  assert (Hcu : c * (s * s) * (s * s) < a * ((u * v) * (u * v))).
  { apply (Z.mul_lt_mono_pos_l b _ _ Hb).
    replace (b * (c * (s * s) * (s * s)))
      with (b * (s * s) * (c * (s * s))) by ring.
    replace (b * (a * (u * v * (u * v))))
      with (a * (u * u) * (b * (v * v))) by ring.
    exact Hm. }
  assert (H3' : a * (x3 * x3) * (s * s) <= c * (s * s) * (s * s))
    by (apply Z.mul_le_mono_nonneg_r; lia).
  assert (Hlt : a * ((x3 * s) * (x3 * s)) < a * ((u * v) * (u * v))).
  { replace (a * (x3 * s * (x3 * s))) with (a * (x3 * x3) * (s * s)) by ring.
    lia. }
  apply Z.mul_lt_mono_pos_l in Hlt; [| exact Ha].
  apply Z.square_lt_simpl_nonneg; [| exact Hlt].
  apply Z.mul_nonneg_nonneg; unfold u, v; lia.
Qed.

(** X12: prices chain.  For three tokens with positive reserves, the results
    [x1] for (a, b) and [x2] for (b, c) give the result [x3] for (a, c) up to
    rounding: [(x1 * x2) // 2^96 <= x3] and [x3 * 2^96 < (x1 + 1) * (x2 + 1)]. *)
Theorem chained_prices (a b c : Z) (da db dc : N) :
  0 < a -> 0 < b -> 0 <= c ->
  exists x1 x2 x3,
    calculate_sqrt_price a b da db = Return x1 /\
    calculate_sqrt_price b c db dc = Return x2 /\
    calculate_sqrt_price a c da dc = Return x3 /\
    x1 * x2 / 2 ^ 96 <= x3 /\
    x3 * 2 ^ 96 < (x1 + 1) * (x2 + 1).
Proof.
  intros Ha Hb Hc.
  pose proof (ten_pow_pos da) as Hpa. pose proof (ten_pow_pos db) as Hpb.
  assert (HA : 0 < a * 10 ^ Z.of_N da) by nia.
  assert (HB : 0 < b * 10 ^ Z.of_N db) by nia.
  pose proof (amount_nonneg c dc Hc) as HC.
  do 3 eexists. split; [apply valid_eval; lia |].
  split; [apply valid_eval; lia |]. split; [apply valid_eval; lia |].
  set (A := a * 10 ^ Z.of_N da) in *. set (B := b * 10 ^ Z.of_N db) in *.
  set (C := c * 10 ^ Z.of_N dc) in *.
  rewrite two_pow_192_square.
  assert (Hs : 0 < 2 ^ 96) by reflexivity. set (s := 2 ^ 96) in *.
  assert (Hss : 0 < s * s) by nia.
  assert (HnB : 0 <= B * (s * s)) by (apply Z.mul_nonneg_nonneg; lia).
  assert (HnC : 0 <= C * (s * s)) by (apply Z.mul_nonneg_nonneg; lia).
  destruct (sqrt_div_floor _ _ HnB HA) as [Hab1 Hab2].
  destruct (sqrt_div_floor _ _ HnC HB) as [Hbc1 Hbc2].
  destruct (sqrt_div_floor _ _ HnC HA) as [Hac1 Hac2].
  pose proof (Z.sqrt_nonneg (B * (s * s) / A)) as Hx1.
  pose proof (Z.sqrt_nonneg (C * (s * s) / B)) as Hx2.
  pose proof (Z.sqrt_nonneg (C * (s * s) / A)) as Hx3.
  set (x1 := Z.sqrt (B * (s * s) / A)) in *.
  set (x2 := Z.sqrt (C * (s * s) / B)) in *.
  set (x3 := Z.sqrt (C * (s * s) / A)) in *.
  split.
  - apply Z.sqrt_le_square;
      [apply Z.div_pos; assumption
      | apply Z.div_pos; [apply Z.mul_nonneg_nonneg; assumption | exact Hs] |].
    apply Z.div_le_lower_bound; [exact HA |].
    apply (chain_product_lower A B C s x1 x2); assumption.
  - apply (chain_product_upper A B C s x1 x2 x3); assumption.
Qed.

Lemma chained_prices_witness :
  0 < 3 /\ 0 < 7 /\ 0 <= 5 /\
  exists x1 x2 x3,
    calculate_sqrt_price 3 7 6 18 = Return x1 /\
    calculate_sqrt_price 7 5 18 8 = Return x2 /\
    calculate_sqrt_price 3 5 6 8 = Return x3 /\
    x1 * x2 / 2 ^ 96 <= x3 /\
    x3 * 2 ^ 96 < (x1 + 1) * (x2 + 1).
Proof.
  assert (Ha : 0 < 3) by lia.
  assert (Hb : 0 < 7) by lia.
  assert (Hc : 0 <= 5) by lia.
  split; [exact Ha | split; [exact Hb | split; [exact Hc |]]].
  exact (chained_prices 3 7 5 6 18 8 Ha Hb Hc).
Defined.

(** ** The outcomes of the call on arbitrary integers *)

(** X13: whatever the integer reserves, the call ends in one of three ways: the
    guard's [InvalidInput], the [ValueError] of [math.isqrt], or a value that
    is not negative.  The division never raises [ZeroDivisionError]: the guard
    has excluded the zero divisor. *)
Theorem outcome_kinds (r0 r1 : Z) (d0 d1 : N) :
  (calculate_sqrt_price r0 r1 d0 d1 = Raise InvalidInput \/
   calculate_sqrt_price r0 r1 d0 d1 = Raise Py.isqrt_negative \/
   exists x, calculate_sqrt_price r0 r1 d0 d1 = Return x /\ 0 <= x) /\
  (forall msg, calculate_sqrt_price r0 r1 d0 d1 <> Raise (ZeroDivisionError msg)).
Proof.
  assert (H : calculate_sqrt_price r0 r1 d0 d1 = Raise InvalidInput \/
              calculate_sqrt_price r0 r1 d0 d1 = Raise Py.isqrt_negative \/
              exists x, calculate_sqrt_price r0 r1 d0 d1 = Return x /\ 0 <= x).
  { destruct (Z.eq_dec (r0 * 10 ** d0) 0) as [E | E].
    - left. apply calculate_sqrt_price_zero, E.
    - right. rewrite calculate_sqrt_price_nonzero by exact E. unfold Py.isqrt.
      destruct (_ <? 0); [left; reflexivity | right].
      eexists. split; [reflexivity | apply Z.sqrt_nonneg]. }
  split; [exact H |].
  intros msg Hz. rewrite Hz in H.
  destruct H as [H | [H | [x [H _]]]]; discriminate H.
Qed.
